(** * Adafruit_IO.mqtt_client: the MQTT adapter, embedded and verified

    The module [Adafruit_IO/mqtt_client.py] wraps a paho-mqtt client: it
    turns feed identifiers into topic strings, decodes payload bytes and
    forwards the connection and message events of the paho client to the
    callbacks of the caller.

    Conventions of the embedding.
    - A Python [str] is a [string] holding the UTF-8 encoding of the text.
      Concatenation and splitting at the ASCII character '/' are the same
      on code points and on their UTF-8 encoding, so [str.format] and
      [str.split] are modelled byte-wise.
    - [bytes] is [list byte]; an integer is a [Z].
    - A method is a computation in [Py]: it reads and writes the adapter
      object, appends to a trace the calls it makes on its collaborators
      (the paho client, the [logging] module and the callbacks of the
      caller) and either returns or raises.  Attribute writes made before a
      [raise] persist, as they do in Python.
    - The paho client and the callbacks are not part of the module.  A call
      on the paho client is a [Request] event; the integer that
      [Client.connect] hands back is given by an oracle over the trace.  A
      call of a user callback is an [Invoke] event carrying the adapter as
      it is at the time of the call; the callback is taken to return
      without raising and without touching the adapter.
    - paho keeps the topic of a message as bytes and decodes it each time
      [msg.topic] is read.  [RawMessage] and [_mqtt_message_raw] are the
      message and the hook as paho has them; [MQTTMessage] and
      [_mqtt_message] are the same with the topic read once and for all,
      for the messages whose topic is text. *)

From Stdlib Require Import Strings.String Strings.Ascii Strings.Byte List ZArith NArith Bool Lia.
From Stdlib Require Import DecimalString.
Import ListNotations.
Local Open Scope string_scope.
Local Open Scope Z_scope.

(** ** Python built-ins used by the module *)

(** Exceptions the module raises itself or lets through. *)
Inductive Exn : Type :=
| RuntimeError (message : string)
| IndexError
| UnicodeDecodeError
| TypeError
| OtherError (name : string).

(** [str(n)] for an [int]. *)
Definition str_of_int (n : Z) : string :=
  NilZero.string_of_int (Z.to_int n).

(** [s.split(sep)] for a separator of one character. *)
Fixpoint str_split (sep : ascii) (s : string) : list string :=
  match s with
  | EmptyString => [EmptyString]
  | String c rest =>
      if Ascii.eqb c sep then EmptyString :: str_split sep rest
      else match str_split sep rest with
           | [] => [String c EmptyString]
           | word :: words => String c word :: words
           end
  end.

(** [sep.join(l)], the inverse of [str_split]. *)
Fixpoint str_join (sep : ascii) (l : list string) : string :=
  match l with
  | [] => EmptyString
  | [word] => word
  | word :: words => word ++ String sep (str_join sep words)
  end.

(** [c in s] for a character. *)
Fixpoint str_contains (c : ascii) (s : string) : bool :=
  match s with
  | EmptyString => false
  | String d rest => Ascii.eqb d c || str_contains c rest
  end.

(** [l[i]] for [0 <= i]: [None] stands for IndexError. *)
Definition list_getitem {A : Type} (l : list A) (i : nat) : option A :=
  nth_error l i.

Arguments list_getitem : simpl never.

(** *** UTF-8 *)

Definition byte_in (lo hi : N) (b : byte) : bool :=
  (N.leb lo (Byte.to_N b) && N.leb (Byte.to_N b) hi)%bool.

Definition continuation_byte : byte -> bool := byte_in 0x80 0xBF.

(** Second byte of a three-byte sequence: no overlong forms, no surrogates. *)
Definition second_of_three (b0 b1 : byte) : bool :=
  if byte_in 0xE0 0xE0 b0 then byte_in 0xA0 0xBF b1
  else if byte_in 0xED 0xED b0 then byte_in 0x80 0x9F b1
  else continuation_byte b1.

(** Second byte of a four-byte sequence: no overlong forms, at most U+10FFFF. *)
Definition second_of_four (b0 b1 : byte) : bool :=
  if byte_in 0xF0 0xF0 b0 then byte_in 0x90 0xBF b1
  else if byte_in 0xF4 0xF4 b0 then byte_in 0x80 0x8F b1
  else continuation_byte b1.

(** Well-formed UTF-8, as the strict decoder of Python accepts it. *)
Fixpoint utf8_well_formed (bs : list byte) : bool :=
  match bs with
  | [] => true
  | b0 :: r0 =>
      if byte_in 0x00 0x7F b0 then utf8_well_formed r0
      else
        match r0 with
        | [] => false
        | b1 :: r1 =>
            if byte_in 0xC2 0xDF b0 then
              (continuation_byte b1 && utf8_well_formed r1)%bool
            else
              match r1 with
              | [] => false
              | b2 :: r2 =>
                  if byte_in 0xE0 0xEF b0 then
                    (second_of_three b0 b1 && continuation_byte b2
                     && utf8_well_formed r2)%bool
                  else
                    match r2 with
                    | [] => false
                    | b3 :: r3 =>
                        (byte_in 0xF0 0xF4 b0 && second_of_four b0 b1
                         && continuation_byte b2 && continuation_byte b3
                         && utf8_well_formed r3)%bool
                    end
              end
        end
  end.

(** [b.decode('utf-8')]: [None] stands for UnicodeDecodeError. *)
Definition bytes_decode_utf8 (b : list byte) : option string :=
  if utf8_well_formed b then Some (string_of_list_byte b) else None.

Arguments bytes_decode_utf8 : simpl never.

(** ** The adapter object and its collaborators *)

(** How long to wait before sending a keep alive. *)
Definition KEEP_ALIVE_SEC : Z := 3600.

(** A message as paho hands it to the message hook, its topic read. *)
Record MQTTMessage : Type := mkMessage {
  topic : string;
  payload : option (list byte)
}.

(** A message as paho holds it: the topic is kept as the bytes received. *)
Record RawMessage : Type := mkRawMessage {
  _topic : list byte;
  raw_payload : option (list byte)
}.

(** [msg.topic], a property of paho's message: [self._topic.decode('utf-8')].
    [None] stands for UnicodeDecodeError. *)
Definition message_topic (m : RawMessage) : option string :=
  bytes_decode_utf8 (_topic m).

Arguments message_topic : simpl never.

(** ['' if msg.payload is None else msg.payload.decode('utf-8')] *)
Definition raw_payload_text (m : RawMessage) : option string :=
  match raw_payload m with
  | None => Some ""
  | Some b => bytes_decode_utf8 b
  end.

(** How a method call ends. *)
Inductive Outcome (A : Type) : Type :=
| Returned (a : A)
| Raised (e : Exn).

Arguments Returned {A} a.
Arguments Raised {A} e.

Section Adapter.

(** [Value] is what the caller publishes or passes as a keyword argument:
    the adapter hands it through.  [Callable] is a callback of the caller. *)
Context {Value Callable : Type}.

(** The attributes of an [MQTTClient] instance ([_client] apart: the calls
    made on it are in the trace). *)
Record MQTTClient : Type := mkMQTTClient {
  _username : string;
  _service_host : string;
  _service_port : Z;
  _topic_fmt : string;
  _instance_name : option string;
  on_connect : option Callable;
  on_disconnect : option Callable;
  on_message : option Callable;
  _connected : bool;
  _disconnect_reason : option Z
}.

(** Calls made on the paho client [self._client]. *)
Inductive PahoCall : Type :=
| Client_new (client_id : option string)
| Client_username_pw_set (username key : string)
| Client_set_on_connect
| Client_set_on_disconnect
| Client_set_on_message
| Client_connect (host : string) (port keepalive : Z)
    (kwargs : list (string * Value))
| Client_disconnect
| Client_subscribe (topic : string) (qos : Z)
| Client_publish (topic : string) (payload : Value) (qos : Z).

Inductive LogArg : Type :=
| LogStr (s : string)
| LogInt (n : Z)
| LogValue (v : Value).

(** What a method does to the world around the adapter, in order. *)
Inductive Event : Type :=
| Debug (format : string) (args : list LogArg)
| Request (call : PahoCall)
| Invoke (callback : Callable) (adapter : MQTTClient) (args : list string).

Record World : Type := mkWorld {
  self : MQTTClient;
  trace : list Event
}.

(** What [self._client.connect] hands back, given the trace up to and
    including the request: a return code, or an exception of paho (a socket
    error, or the TypeError of a keyword that paho's [connect] does not
    take). *)
Context (client_connect_result : list Event -> Outcome Z).

(** *** Computations *)

Definition Py (A : Type) : Type := World -> Outcome A * World.

Definition ret {A : Type} (a : A) : Py A :=
  fun w => (Returned a, w).

Definition raise {A : Type} (e : Exn) : Py A :=
  fun w => (Raised e, w).

Definition bind {A B : Type} (c : Py A) (k : A -> Py B) : Py B :=
  fun w =>
    match c w with
    | (Returned a, w') => k a w'
    | (Raised e, w') => (Raised e, w')
    end.

Notation "x <- c ;; k" := (bind c (fun x => k))
  (at level 61, c at next level, right associativity).
Notation "c ;; k" := (bind c (fun _ => k))
  (at level 61, right associativity).

Definition outcome {A : Type} (c : Py A) (w : World) : Outcome A := fst (c w).
Definition after {A : Type} (c : Py A) (w : World) : World := snd (c w).

Definition get_self : Py MQTTClient :=
  fun w => (Returned (self w), w).

Definition emit (e : Event) : Py unit :=
  fun w => (Returned tt, mkWorld (self w) (trace w ++ [e])).

(** [None] of [list_getitem] and [bytes_decode_utf8] as exceptions. *)
Definition or_raise {A : Type} (e : Exn) (o : option A) : Py A :=
  match o with
  | Some a => ret a
  | None => raise e
  end.

Definition logger_debug (format : string) (args : list LogArg) : Py unit :=
  emit (Debug format args).

Definition request (call : PahoCall) : Py unit :=
  emit (Request call).

(** [f(self, *args)] for a callback [f] of the caller. *)
Definition invoke (f : Callable) (args : list string) : Py unit :=
  fun w => emit (Invoke f (self w) args) w.

(** [self._connected = b] *)
Definition set__connected (b : bool) : Py unit :=
  fun w =>
    let s := self w in
    (Returned tt,
     mkWorld (mkMQTTClient (_username s) (_service_host s) (_service_port s)
                (_topic_fmt s) (_instance_name s) (on_connect s)
                (on_disconnect s) (on_message s) b (_disconnect_reason s))
       (trace w)).

(** [self._disconnect_reason = rc] *)
Definition set__disconnect_reason (rc : Z) : Py unit :=
  fun w =>
    let s := self w in
    (Returned tt,
     mkWorld (mkMQTTClient (_username s) (_service_host s) (_service_port s)
                (_topic_fmt s) (_instance_name s) (on_connect s)
                (on_disconnect s) (on_message s) (_connected s) (Some rc))
       (trace w)).

(** [rc = self._client.connect(host, port=port, keepalive=keepalive, **kwargs)] *)
Definition client_connect (host : string) (port keepalive : Z)
    (kwargs : list (string * Value)) : Py Z :=
  request (Client_connect host port keepalive kwargs) ;;
  fun w => (client_connect_result (trace w), w).

(** *** The methods of [MQTTClient] *)

(** [MQTTClient(username, key, service_host, service_port, client_id,
    topic_fmt, instance_name)]: the new instance and the calls made on the
    paho client while it is built. *)
Definition __init__ (username key service_host : string) (service_port : Z)
    (client_id : option string) (topic_fmt : string)
    (instance_name : option string) : World :=
  mkWorld
    (mkMQTTClient username service_host service_port topic_fmt instance_name
       None None None false None)
    [Request (Client_new client_id);
     Request (Client_username_pw_set username key);
     Request Client_set_on_connect;
     Request Client_set_on_disconnect;
     Request Client_set_on_message].

(** The hook paho calls with the result code of the handshake. *)
Definition _mqtt_connect (rc : Z) : Py unit :=
  s <- get_self ;;
  logger_debug "Client on_connect called for %s." [LogStr (_service_host s)] ;;
  (if rc =? 0 then set__connected true
   else raise (RuntimeError ("Error connecting to " ++ _service_host s
                             ++ " with rc: " ++ str_of_int rc))) ;;
  s <- get_self ;;
  match on_connect s with
  | Some f => invoke f []
  | None => ret tt
  end.

(** The hook paho calls when the connection ends. *)
Definition _mqtt_disconnect (rc : Z) : Py unit :=
  s <- get_self ;;
  logger_debug "Client on_disconnect called for %s." [LogStr (_service_host s)] ;;
  set__connected false ;;
  set__disconnect_reason rc ;;
  s <- get_self ;;
  (if negb (rc =? 0) && match on_disconnect s with None => true | Some _ => false end
   then raise (RuntimeError ("Unexpected disconnect from " ++ _service_host s
                             ++ " with rc: " ++ str_of_int rc))
   else ret tt) ;;
  s <- get_self ;;
  match on_disconnect s with
  | Some f => invoke f []
  | None => ret tt
  end.

(** ['' if msg.payload is None else msg.payload.decode('utf-8')] *)
Definition payload_text (msg : MQTTMessage) : option string :=
  match payload msg with
  | None => Some ""
  | Some b => bytes_decode_utf8 b
  end.

(** The hook paho calls for every message received. *)
Definition _mqtt_message (msg : MQTTMessage) : Py unit :=
  s <- get_self ;;
  logger_debug "Client on_message called for %s." [LogStr (_service_host s)] ;;
  (if (_topic_fmt s =? "adafruit_fmt")%string then
     let parsed_topic := str_split "/" (topic msg) in
     s <- get_self ;;
     match on_message s with
     | Some f =>
         first <- or_raise IndexError (list_getitem parsed_topic 0) ;;
         if (_username s =? first)%string then
           feed <- or_raise IndexError (list_getitem parsed_topic 2) ;;
           text <- or_raise UnicodeDecodeError (payload_text msg) ;;
           invoke f [feed; text]
         else ret tt
     | None => ret tt
     end
   else ret tt) ;;
  s <- get_self ;;
  match on_message s with
  | Some f =>
      text <- or_raise UnicodeDecodeError (payload_text msg) ;;
      invoke f [topic msg; text]
  | None => ret tt
  end.

(** The message hook on a message as paho holds it.  [msg.topic] is read,
    and decoded, where the source reads it: before the split in structured
    mode, callback or not, and as an argument of the last call. *)
Definition _mqtt_message_raw (msg : RawMessage) : Py unit :=
  s <- get_self ;;
  logger_debug "Client on_message called for %s." [LogStr (_service_host s)] ;;
  (if (_topic_fmt s =? "adafruit_fmt")%string then
     whole <- or_raise UnicodeDecodeError (message_topic msg) ;;
     let parsed_topic := str_split "/" whole in
     s <- get_self ;;
     match on_message s with
     | Some f =>
         first <- or_raise IndexError (list_getitem parsed_topic 0) ;;
         if (_username s =? first)%string then
           feed <- or_raise IndexError (list_getitem parsed_topic 2) ;;
           text <- or_raise UnicodeDecodeError (raw_payload_text msg) ;;
           invoke f [feed; text]
         else ret tt
     | None => ret tt
     end
   else ret tt) ;;
  s <- get_self ;;
  match on_message s with
  | Some f =>
      text <- or_raise UnicodeDecodeError (raw_payload_text msg) ;;
      whole <- or_raise UnicodeDecodeError (message_topic msg) ;;
      invoke f [whole; text]
  | None => ret tt
  end.

(** The call [self._client.connect(self._service_host,
    port=self._service_port, keepalive=KEEP_ALIVE_SEC, **kwargs)] cannot be
    made when [kwargs] names an argument that the call already gives:
    [port] and [keepalive], given by keyword, and [host], the name of the
    first parameter of paho's [connect].  Python then raises TypeError and
    the body of paho's [connect] is not entered. *)
Definition keyword_clash (kwargs : list (string * Value)) : bool :=
  existsb (fun kv => (fst kv =? "host")%string || (fst kv =? "port")%string
                     || (fst kv =? "keepalive")%string)
    kwargs.

(** Connect to the service; skipped if already connected. *)
Definition connect (kwargs : list (string * Value)) : Py unit :=
  s <- get_self ;;
  if _connected s then ret tt
  else
    logger_debug "connect called for %s." [LogStr (_service_host s)] ;;
    if keyword_clash kwargs then raise TypeError
    else
      rc <- client_connect (_service_host s) (_service_port s) KEEP_ALIVE_SEC kwargs ;;
      if negb (rc =? 0) then
        raise (RuntimeError ("connect error " ++ _service_host s
                             ++ " with rc: " ++ str_of_int rc))
      else ret tt.

Definition is_connected : Py bool :=
  s <- get_self ;;
  ret (_connected s).

(** Disconnect MQTT client if connected. *)
Definition disconnect : Py unit :=
  s <- get_self ;;
  if _connected s then request Client_disconnect else ret tt.

Definition disconnect_reason : Py (option Z) :=
  s <- get_self ;;
  ret (_disconnect_reason s).

(** Subscribe to changes on the specified feed. *)
Definition subscribe (feed_id : string) (qos : Z) : Py unit :=
  s <- get_self ;;
  (if (_topic_fmt s =? "adafruit_fmt")%string then
     request (Client_subscribe (_username s ++ "/feeds/" ++ feed_id) qos)
   else ret tt) ;;
  s <- get_self ;;
  if (_topic_fmt s =? "rawmqtt_fmt")%string then
    request (Client_subscribe feed_id qos)
  else ret tt.

(** Publish a value to a specified feed. *)
Definition publish (feed_id : string) (value : Value) (qos : Z) : Py unit :=
  s <- get_self ;;
  (if (_topic_fmt s =? "adafruit_fmt")%string then
     request (Client_publish (_username s ++ "/feeds/" ++ feed_id) value qos) ;;
     logger_debug "publish to Adafruit called for %s - %s - QOS %s."
       [LogStr feed_id; LogValue value; LogInt qos]
   else ret tt) ;;
  s <- get_self ;;
  if (_topic_fmt s =? "rawmqtt_fmt")%string then
    request (Client_publish feed_id value qos) ;;
    logger_debug "publish to MQTT called for %s - %s - QOS %s."
      [LogStr feed_id; LogValue value; LogInt qos]
  else ret tt.

(** *** Reading the trace *)

(** The calls made on the paho client, in order. *)
Fixpoint requests (t : list Event) : list PahoCall :=
  match t with
  | [] => []
  | Request call :: t' => call :: requests t'
  | _ :: t' => requests t'
  end.

(** The callback calls, in order: callback, adapter passed, other arguments. *)
Fixpoint invocations (t : list Event)
    : list (Callable * MQTTClient * list string) :=
  match t with
  | [] => []
  | Invoke f a args :: t' => (f, a, args) :: invocations t'
  | _ :: t' => invocations t'
  end.

(** The caller sets a callback: [client.on_connect = f] and the like. *)
Definition set_on_connect (f : option Callable) (w : World) : World :=
  let s := self w in
  mkWorld (mkMQTTClient (_username s) (_service_host s) (_service_port s)
             (_topic_fmt s) (_instance_name s) f
             (on_disconnect s) (on_message s) (_connected s)
             (_disconnect_reason s))
    (trace w).

Definition set_on_disconnect (f : option Callable) (w : World) : World :=
  let s := self w in
  mkWorld (mkMQTTClient (_username s) (_service_host s) (_service_port s)
             (_topic_fmt s) (_instance_name s) (on_connect s)
             f (on_message s) (_connected s)
             (_disconnect_reason s))
    (trace w).

Definition set_on_message (f : option Callable) (w : World) : World :=
  let s := self w in
  mkWorld (mkMQTTClient (_username s) (_service_host s) (_service_port s)
             (_topic_fmt s) (_instance_name s) (on_connect s)
             (on_disconnect s) f (_connected s)
             (_disconnect_reason s))
    (trace w).

End Adapter.

(** ** Histories of an adapter *)

Section Usage.

Context {Value Callable : Type}.
Context (client_connect_result : list (@Event Value Callable) -> Outcome Z).

(** What happens to an adapter over its life: the caller calls a method or
    sets a callback, paho calls a hook. *)
Inductive Action : Type :=
| Call_connect (kwargs : list (string * Value))
| Call_is_connected
| Call_disconnect
| Call_disconnect_reason
| Call_subscribe (feed_id : string) (qos : Z)
| Call_publish (feed_id : string) (value : Value) (qos : Z)
| Hook_connect (rc : Z)
| Hook_disconnect (rc : Z)
| Hook_message (msg : MQTTMessage)
| Assign_on_connect (f : option Callable)
| Assign_on_disconnect (f : option Callable)
| Assign_on_message (f : option Callable).

(** The world after one action.  An action that raises leaves the world as
    it was when the exception left the method. *)
Definition perform (a : Action) (w : @World Value Callable)
    : @World Value Callable :=
  match a with
  | Call_connect kwargs => after (connect client_connect_result kwargs) w
  | Call_is_connected => after is_connected w
  | Call_disconnect => after disconnect w
  | Call_disconnect_reason => after disconnect_reason w
  | Call_subscribe feed_id qos => after (subscribe feed_id qos) w
  | Call_publish feed_id value qos => after (publish feed_id value qos) w
  | Hook_connect rc => after (_mqtt_connect rc) w
  | Hook_disconnect rc => after (_mqtt_disconnect rc) w
  | Hook_message msg => after (_mqtt_message msg) w
  | Assign_on_connect f => set_on_connect f w
  | Assign_on_disconnect f => set_on_disconnect f w
  | Assign_on_message f => set_on_message f w
  end.

(** The world after a history of actions, oldest first. *)
Definition perform_all (h : list Action) (w : @World Value Callable)
    : @World Value Callable :=
  fold_left (fun w' a => perform a w') h w.

(** A connect hook that reports success. *)
Definition is_handshake (a : Action) : bool :=
  match a with
  | Hook_connect rc => rc =? 0
  | _ => false
  end.

Definition is_disconnect_hook (a : Action) : bool :=
  match a with
  | Hook_disconnect _ => true
  | _ => false
  end.

(** The caller sets a callback. *)
Definition is_assignment (a : Action) : bool :=
  match a with
  | Assign_on_connect _ | Assign_on_disconnect _ | Assign_on_message _ => true
  | _ => false
  end.

(** A callback call names a callback that the adapter passed along holds. *)
Definition registered (call : Callable * @MQTTClient Callable * list string)
    : Prop :=
  let '(f, adapter, _) := call in
  on_connect adapter = Some f \/ on_disconnect adapter = Some f
  \/ on_message adapter = Some f.

End Usage.

(** ** Sample adapters and messages *)

Definition default_service_host : string := "io.adafruit.com".
Definition default_service_port : Z := 1883.
Definition default_topic_fmt : string := "adafruit_fmt".

(** [MQTTClient('alice', 'secret')] *)
Definition alice : @World string string :=
  __init__ "alice" "secret" default_service_host default_service_port None
    default_topic_fmt None.

(** [MQTTClient('alice', 'secret', topic_fmt='rawmqtt_fmt')] *)
Definition alice_raw : @World string string :=
  __init__ "alice" "secret" default_service_host default_service_port None
    "rawmqtt_fmt" None.

(** [MQTTClient('alice', 'secret', topic_fmt='plain')] *)
Definition alice_plain : @World string string :=
  __init__ "alice" "secret" default_service_host default_service_port None
    "plain" None.

(** [alice] after [client.on_message = message] *)
Definition alice_listening : @World string string :=
  set_on_message (Some "message") alice.

(** [alice] once paho has reported a successful handshake. *)
Definition alice_connected : @World string string :=
  after (_mqtt_connect 0) alice.

(** [alice] after [client.on_disconnect = disconnected] *)
Definition alice_watching : @World string string :=
  set_on_disconnect (Some "disconnected") alice.

(** A paho client whose [connect] always returns 0. *)
Definition paho_accepts : list (@Event string string) -> Outcome Z :=
  fun _ => Returned 0.

(** The text "72" published on the feed "temp" of alice. *)
Definition temp_72 : MQTTMessage :=
  mkMessage "alice/feeds/temp" (Some [x37; x32]).

(** A message on the feed "temp" of bob. *)
Definition bob_72 : MQTTMessage :=
  mkMessage "bob/feeds/temp" (Some [x37; x32]).

(** A message on the feed "temp" of the group "home". *)
Definition home_temp_72 : MQTTMessage :=
  mkMessage "alice/feeds/home/temp" (Some [x37; x32]).




(** A session: connect, handshake, subscribe, a message, then the broker
    drops the connection with code 7. *)
Definition dropped_session : list (@Action string string) :=
  [Assign_on_message (Some "message"%string);
   Assign_on_disconnect (Some "disconnected"%string);
   Call_connect [];
   Hook_connect 0;
   Call_subscribe "temp" 0;
   Hook_message temp_72;
   Hook_disconnect 7].

(** A session that is still connected at its end. *)
Definition live_session : list (@Action string string) :=
  [Call_connect []; Hook_connect 0; Call_subscribe "temp" 0;
   Hook_message temp_72; Call_publish "temp" "73"%string 0].

(** A message on alice's feed "temp" that carries no payload, as paho
    holds it. *)
Definition raw_temp_nothing : RawMessage :=
  mkRawMessage (list_byte_of_string "alice/feeds/temp") None.

(** A message whose topic is not UTF-8, with the payload "72". *)
Definition raw_garbled_topic : RawMessage :=
  mkRawMessage [xff; x2f; x66] (Some [x37; x32]).

(** A message with a short topic and a payload that is not UTF-8. *)
Definition raw_short_garbled : RawMessage :=
  mkRawMessage (list_byte_of_string "alice/feeds") (Some [xff]).


(** A message whose topic stops after "feeds". *)
Definition short_topic : MQTTMessage :=
  mkMessage "alice/feeds" (Some [x37; x32]).

(** ** Properties *)

(** Unfolds a method down to the world it returns. *)
Ltac run_method :=
  unfold outcome, after, _mqtt_connect, _mqtt_disconnect, _mqtt_message,
    _mqtt_message_raw, connect, disconnect, is_connected, disconnect_reason, subscribe, publish,
    client_connect, or_raise, logger_debug, request, invoke, emit,
    set__connected, set__disconnect_reason, get_self, bind, ret, raise;
  cbn [fst snd self trace _username _service_host _service_port _topic_fmt
       _instance_name on_connect on_disconnect on_message _connected
       _disconnect_reason].

Ltac split_all :=
  repeat match goal with |- _ /\ _ => split end.

(** Case analysis on the test the method is stopped at. *)
Ltac step :=
  match goal with
  | |- context [if ?b then _ else _] => destruct b eqn:?; cbn
  | |- context [match ?o with Some _ => _ | None => _ end] =>
      destruct o eqn:?; cbn
  end.

Section Properties.

Context {Value Callable : Type}.
Context (client_connect_result : list (@Event Value Callable) -> Outcome Z).

Implicit Types (w : @World Value Callable) (rc qos : Z) (msg : MQTTMessage).

Local Open Scope list_scope.

(** *** The built-ins *)

Lemma str_split_not_nil (sep : ascii) (s : string) : str_split sep s <> [].
Proof.
  destruct s as [|c rest]; simpl; [discriminate|].
  destruct (Ascii.eqb c sep); [discriminate|].
  destruct (str_split sep rest); discriminate.
Qed.

(** Splitting loses nothing: joining the parts gives the string back. *)
Lemma str_join_split (sep : ascii) (s : string) :
  str_join sep (str_split sep s) = s.
Proof.
  induction s as [|c rest IH]; simpl; [reflexivity|].
  destruct (Ascii.eqb_spec c sep) as [->|Hne].
  - pose proof (str_split_not_nil sep rest) as Hnil.
    destruct (str_split sep rest) as [|word words] eqn:E; [contradiction|].
    simpl. now rewrite <- IH.
  - pose proof (str_split_not_nil sep rest) as Hnil.
    destruct (str_split sep rest) as [|word words] eqn:E; [contradiction|].
    rewrite <- IH. destruct words; reflexivity.
Qed.

(** A string without the separator is one part. *)
Lemma str_split_without (sep : ascii) (s : string) :
  str_contains sep s = false -> str_split sep s = [s].
Proof.
  induction s as [|c rest IH]; simpl; [reflexivity|].
  intros H. apply orb_false_iff in H as [Hc Hrest].
  rewrite Hc, (IH Hrest). reflexivity.
Qed.

(** The first separator ends the first part. *)
Lemma str_split_at_first (sep : ascii) (a b : string) :
  str_contains sep a = false ->
  str_split sep (a ++ String sep b)%string = a :: str_split sep b.
Proof.
  induction a as [|c rest IH]; simpl; intros H.
  - now rewrite Ascii.eqb_refl.
  - apply orb_false_iff in H as [Hc Hrest].
    rewrite Hc, (IH Hrest). reflexivity.
Qed.

(** The topic of a feed parses back into user name, "feeds" and feed id. *)
Lemma feed_topic_split (username feed_id : string) :
  str_contains "/" username = false ->
  str_contains "/" feed_id = false ->
  str_split "/" (username ++ "/feeds/" ++ feed_id)%string
  = [username; "feeds"; feed_id].
Proof.
  intros Hu Hf.
  change (username ++ "/feeds/" ++ feed_id)%string
    with (username ++ String "/" ("feeds" ++ String "/" feed_id))%string.
  rewrite (str_split_at_first "/" username _ Hu).
  rewrite (str_split_at_first "/" "feeds" feed_id eq_refl).
  now rewrite (str_split_without "/" feed_id Hf).
Qed.

Lemma list_getitem_length {A : Type} (l : list A) (i : nat) :
  (length l <= i)%nat -> list_getitem l i = None.
Proof. intros H. unfold list_getitem. now apply nth_error_None. Qed.

(** A split always has a first part. *)
Lemma str_split_first (sep : ascii) (s : string) :
  exists first, list_getitem (str_split sep s) 0 = Some first.
Proof.
  pose proof (str_split_not_nil sep s) as Hnil.
  destruct (str_split sep s) as [|first rest]; [contradiction|].
  now exists first.
Qed.

(** A third segment is there exactly when the split has three parts. *)
Lemma list_getitem_none_iff {A : Type} (l : list A) (i : nat) :
  list_getitem l i = None <-> (length l <= i)%nat.
Proof. unfold list_getitem. apply nth_error_None. Qed.

(** Bytes below 0x80 are well formed: ASCII text always decodes. *)
Lemma utf8_ascii_well_formed (bs : list byte) :
  forallb (byte_in 0x00 0x7F) bs = true -> utf8_well_formed bs = true.
Proof.
  induction bs as [|b rest IH]; simpl; [reflexivity|].
  intros H. apply andb_true_iff in H as [Hb Hrest].
  rewrite Hb. exact (IH Hrest).
Qed.

(** *** The trace *)

Lemma requests_app (t1 t2 : list (@Event Value Callable)) :
  requests (t1 ++ t2) = requests t1 ++ requests t2.
Proof.
  induction t1 as [|e t1 IH]; simpl; [reflexivity|].
  destruct e; simpl; now rewrite IH.
Qed.

Lemma invocations_app (t1 t2 : list (@Event Value Callable)) :
  invocations (t1 ++ t2) = invocations t1 ++ invocations t2.
Proof.
  induction t1 as [|e t1 IH]; simpl; [reflexivity|].
  destruct e; simpl; now rewrite IH.
Qed.

(** *** The hooks *)

(** A connect hook with code 0 returns, with the adapter marked connected
    and nothing else changed. *)
Lemma mqtt_connect_zero_marks_connected w :
  outcome (_mqtt_connect 0) w = Returned tt /\
  _connected (self (after (_mqtt_connect 0) w)) = true.
Proof.
  run_method. cbn. destruct (on_connect (self w)); cbn; split; reflexivity.
Qed.

(** C4. For every connect-hook invocation with result code 0, the connected
    flag becomes true, so that [is_connected()] returns true afterwards, and
    an [on_connect] callback, if one is registered, is invoked exactly once,
    with the adapter instance as its argument. *)
Theorem mqtt_connect_success w :
  outcome (_mqtt_connect 0) w = Returned tt /\
  _connected (self (after (_mqtt_connect 0) w)) = true /\
  outcome is_connected (after (_mqtt_connect 0) w) = Returned true /\
  invocations (trace (after (_mqtt_connect 0) w))
  = invocations (trace w)
    ++ match on_connect (self w) with
       | Some f => [(f, self (after (_mqtt_connect 0) w), [])]
       | None => []
       end.
Proof.
  run_method. cbn.
  destruct (on_connect (self w)) as [f|] eqn:Hf; cbn;
    repeat split; rewrite ?invocations_app, ?app_nil_r; cbn;
    rewrite ?app_nil_r; reflexivity.
Qed.

(** C5. For every connect-hook invocation with a nonzero result code, the
    hook raises the connection error (a RuntimeError "Error connecting to
    ..."), no callback is invoked, and the connected flag remains false:
    [is_connected()] still returns false. *)
Theorem mqtt_connect_refused w rc :
  rc <> 0 ->
  _connected (self w) = false ->
  outcome (_mqtt_connect rc) w
  = Raised (RuntimeError ("Error connecting to " ++ _service_host (self w)
                          ++ " with rc: " ++ str_of_int rc)%string) /\
  self (after (_mqtt_connect rc) w) = self w /\
  outcome is_connected (after (_mqtt_connect rc) w) = Returned false /\
  invocations (trace (after (_mqtt_connect rc) w)) = invocations (trace w).
Proof.
  intros Hrc Hflag. apply Z.eqb_neq in Hrc.
  run_method. rewrite Hrc. cbn. rewrite Hflag, invocations_app. cbn.
  rewrite app_nil_r. repeat split; reflexivity.
Qed.

(** C3. For every disconnect-hook invocation with result code [rc]: the
    connected flag is set to false and [rc] is recorded as the disconnect
    reason, on the error path too; the disconnect error (a RuntimeError
    "Unexpected disconnect from ...") is raised if and only if [rc] is
    nonzero and no [on_disconnect] callback is registered; a registered
    callback is invoked, for zero and nonzero codes alike, and then no error
    is raised. *)
Theorem mqtt_disconnect_spec w rc :
  _connected (self (after (_mqtt_disconnect rc) w)) = false /\
  _disconnect_reason (self (after (_mqtt_disconnect rc) w)) = Some rc /\
  outcome is_connected (after (_mqtt_disconnect rc) w) = Returned false /\
  outcome disconnect_reason (after (_mqtt_disconnect rc) w)
  = Returned (Some rc) /\
  ((exists e, outcome (_mqtt_disconnect rc) w = Raised e)
   <-> rc <> 0 /\ on_disconnect (self w) = None) /\
  (rc <> 0 -> on_disconnect (self w) = None ->
   outcome (_mqtt_disconnect rc) w
   = Raised (RuntimeError ("Unexpected disconnect from "
                           ++ _service_host (self w)
                           ++ " with rc: " ++ str_of_int rc)%string) /\
   invocations (trace (after (_mqtt_disconnect rc) w))
   = invocations (trace w)) /\
  (forall f, on_disconnect (self w) = Some f ->
   outcome (_mqtt_disconnect rc) w = Returned tt /\
   invocations (trace (after (_mqtt_disconnect rc) w))
   = invocations (trace w) ++ [(f, self (after (_mqtt_disconnect rc) w), [])]).
Proof.
  run_method.
  destruct (on_disconnect (self w)) as [f|] eqn:Hf;
    destruct (Z.eqb_spec rc 0) as [Hrc|Hrc]; cbn;
    rewrite ?invocations_app; cbn; rewrite ?app_nil_r;
    split_all; try reflexivity.
  - split; [intros [e He]; discriminate | intros [H _]; contradiction].
  - intros H; contradiction.
  - intros g Hg. injection Hg as <-. split; reflexivity.
  - split; [intros [e He]; discriminate | intros [_ H]; discriminate].
  - intros _ H; discriminate.
  - intros g Hg. injection Hg as <-. split; reflexivity.
  - split; [intros [e He]; discriminate | intros [H _]; contradiction].
  - intros H; contradiction.
  - intros g Hg; discriminate.
  - split; [intros _; split; [assumption | reflexivity]
           | intros _; eexists; reflexivity].
  - intros _ _. split; reflexivity.
  - intros g Hg; discriminate.
Qed.

(** The message hook leaves the adapter as it is and makes no request on
    the paho client, however it ends. *)
Lemma mqtt_message_frame w msg :
  self (after (_mqtt_message msg) w) = self w /\
  requests (trace (after (_mqtt_message msg) w)) = requests (trace w).
Proof.
  destruct w as [s t]. run_method. repeat step.
  all: rewrite ?requests_app, ?app_nil_r; cbn; rewrite ?app_nil_r.
  all: split; reflexivity.
Qed.

(** C1. In structured topic mode, when a message arrives whose topic has
    the configured username as its first '/'-separated segment, with an
    [on_message] callback registered, the callback is invoked exactly twice
    for that one message: first with the feed id, the third segment of the
    topic, and the decoded text, then with the whole topic string and the
    same text. *)
Theorem mqtt_message_structured_dispatches_twice
    w (f : Callable) msg (feed text : string) :
  _topic_fmt (self w) = "adafruit_fmt"%string ->
  on_message (self w) = Some f ->
  list_getitem (str_split "/" (topic msg)) 0 = Some (_username (self w)) ->
  list_getitem (str_split "/" (topic msg)) 2 = Some feed ->
  payload_text msg = Some text ->
  outcome (_mqtt_message msg) w = Returned tt /\
  invocations (trace (after (_mqtt_message msg) w))
  = invocations (trace w)
    ++ [(f, self w, [feed; text]); (f, self w, [topic msg; text])].
Proof.
  destruct w as [s t]. cbn [self trace]. intros Hfmt Hcb Hfirst Hthird Htext.
  run_method. rewrite Hfmt. cbn. rewrite Hcb. cbn.
  rewrite Hfirst. cbn. rewrite String.eqb_refl, Hthird. cbn.
  rewrite Htext. cbn. rewrite Hcb. cbn.
  rewrite !invocations_app, <- !app_assoc. cbn.
  split; reflexivity.
Qed.

(** C9. In structured mode, with an [on_message] callback registered, a
    message whose topic starts with the configured username but has fewer
    than three segments makes the hook fail with the IndexError of the
    segment lookup; the error reaches the caller of the hook and no callback
    is invoked. *)
Theorem mqtt_message_malformed_topic w (f : Callable) msg :
  _topic_fmt (self w) = "adafruit_fmt"%string ->
  on_message (self w) = Some f ->
  list_getitem (str_split "/" (topic msg)) 0 = Some (_username (self w)) ->
  (length (str_split "/" (topic msg)) < 3)%nat ->
  outcome (_mqtt_message msg) w = Raised IndexError /\
  invocations (trace (after (_mqtt_message msg) w)) = invocations (trace w).
Proof.
  destruct w as [s t]. cbn [self trace]. intros Hfmt Hcb Hfirst Hshort.
  assert (Hthird : list_getitem (str_split "/" (topic msg)) 2 = None)
    by (apply list_getitem_length; lia).
  run_method. rewrite Hfmt. cbn. rewrite Hcb. cbn.
  rewrite Hfirst. cbn. rewrite String.eqb_refl, Hthird. cbn.
  rewrite invocations_app. cbn. rewrite app_nil_r.
  split; reflexivity.
Qed.

(** With a topic that is text, the hook is the hook on the message with
    its topic read. *)
Lemma mqtt_message_raw_readable w (m : RawMessage) (whole : string) :
  message_topic m = Some whole ->
  raw_payload_text m = payload_text (mkMessage whole (raw_payload m)) /\
  _mqtt_message_raw m w = _mqtt_message (mkMessage whole (raw_payload m)) w.
Proof.
  intros Htopic. split; [reflexivity|].
  destruct w as [s t]. run_method. rewrite Htopic. cbn [topic].
  change (payload_text (mkMessage whole (raw_payload m)))
    with (raw_payload_text m).
  repeat step; reflexivity.
Qed.

(** C8. For every incoming message whose payload is absent, or is the empty
    bytes, the payload decodes to the empty string and the hook dispatches
    it to [on_message]: once with the topic when the topic is not parsed as
    a feed topic, and with the feed id and then the topic when it is.  The
    payload produces no failure: when the hook raises, the topic is not
    UTF-8, or it is the short topic that has no feed id. *)
Theorem mqtt_message_absent_payload w (m : RawMessage) :
  raw_payload m = None \/ raw_payload m = Some [] ->
  raw_payload_text m = Some ""%string /\
  (forall e, outcome (_mqtt_message_raw m) w = Raised e ->
     (e = UnicodeDecodeError /\ message_topic m = None) \/
     (e = IndexError /\
      exists whole, message_topic m = Some whole /\
        _topic_fmt (self w) = "adafruit_fmt"%string /\
        list_getitem (str_split "/" whole) 0 = Some (_username (self w)) /\
        (length (str_split "/" whole) < 3)%nat)) /\
  (forall f whole,
     on_message (self w) = Some f ->
     message_topic m = Some whole ->
     (_topic_fmt (self w) <> "adafruit_fmt"%string \/
      list_getitem (str_split "/" whole) 0 <> Some (_username (self w)) ->
      outcome (_mqtt_message_raw m) w = Returned tt /\
      invocations (trace (after (_mqtt_message_raw m) w))
      = invocations (trace w) ++ [(f, self w, [whole; ""%string])]) /\
     (forall feed,
        _topic_fmt (self w) = "adafruit_fmt"%string ->
        list_getitem (str_split "/" whole) 0 = Some (_username (self w)) ->
        list_getitem (str_split "/" whole) 2 = Some feed ->
        outcome (_mqtt_message_raw m) w = Returned tt /\
        invocations (trace (after (_mqtt_message_raw m) w))
        = invocations (trace w)
          ++ [(f, self w, [feed; ""%string]);
              (f, self w, [whole; ""%string])])).
Proof.
  intros Hpayload.
  assert (Htext : raw_payload_text m = Some ""%string)
    by (unfold raw_payload_text; destruct Hpayload as [-> | ->]; reflexivity).
  split; [exact Htext|].
  destruct w as [s t]. cbn [self trace]. split.
  - intros e. run_method. rewrite Htext.
    destruct (message_topic m) as [whole|] eqn:Htopic.
    + destruct (str_split_first "/" whole) as [first Hfirst].
      pose proof (list_getitem_none_iff (str_split "/" whole) 2) as Hthird.
      rewrite Hfirst.
      destruct (_topic_fmt s =? "adafruit_fmt")%string eqn:Hfmt; cbn;
        destruct (on_message s) as [f|] eqn:Hcb; cbn;
        repeat (rewrite Hcb; cbn); try discriminate.
      destruct (_username s =? first)%string eqn:Huser; cbn;
        repeat (rewrite Hcb; cbn); try discriminate.
      destruct (list_getitem (str_split "/" whole) 2) as [feed|] eqn:H2; cbn;
        repeat (rewrite Hcb; cbn); try discriminate.
      intros He. injection He as <-. right. split; [reflexivity|].
      exists whole. apply String.eqb_eq in Hfmt, Huser. subst first.
      split_all; try reflexivity; try assumption.
      assert (length (str_split "/" whole) <= 2)%nat by now apply Hthird.
      lia.
    + destruct (_topic_fmt s =? "adafruit_fmt")%string; cbn;
        destruct (on_message s) as [f|]; cbn; try discriminate.
      all: intros He; injection He as <-; left; split; reflexivity.
  - intros f whole Hcb Htopic. split.
    + intros Hsingle. run_method. rewrite Htext, Htopic.
      destruct (_topic_fmt s =? "adafruit_fmt")%string eqn:Hfmt; cbn;
        repeat (rewrite Hcb; cbn).
      * apply String.eqb_eq in Hfmt.
        destruct Hsingle as [Hraw | Hforeign]; [contradiction|].
        destruct (str_split_first "/" whole) as [first Hfirst].
        rewrite Hfirst in *. cbn.
        assert (Hneq : (_username s =? first)%string = false)
          by (apply String.eqb_neq; congruence).
        rewrite Hneq. cbn. repeat (rewrite Hcb; cbn).
        rewrite !invocations_app, <- !app_assoc. cbn.
        split; reflexivity.
      * rewrite !invocations_app, <- !app_assoc. cbn.
        split; reflexivity.
    + intros feed Hfmt Hfirst Hthird. run_method.
      rewrite Htext, Htopic, Hfmt. cbn. rewrite Hcb. cbn.
      rewrite Hfirst. cbn. rewrite String.eqb_refl, Hthird. cbn.
      rewrite Hcb. cbn.
      rewrite !invocations_app, <- !app_assoc. cbn.
      split; reflexivity.
Qed.

(** X13. A message on the topic that [subscribe] asks for, in structured
    mode, comes back with the feed id it was subscribed under, when neither
    the user name nor the feed id holds a '/'. *)
Lemma mqtt_message_on_feed_topic w (f : Callable) msg (feed_id text : string) :
  _topic_fmt (self w) = "adafruit_fmt"%string ->
  on_message (self w) = Some f ->
  str_contains "/" (_username (self w)) = false ->
  str_contains "/" feed_id = false ->
  topic msg = (_username (self w) ++ "/feeds/" ++ feed_id)%string ->
  payload_text msg = Some text ->
  invocations (trace (after (_mqtt_message msg) w))
  = invocations (trace w)
    ++ [(f, self w, [feed_id; text]); (f, self w, [topic msg; text])].
Proof.
  destruct w as [s t]. cbn [self trace]. intros Hfmt Hcb Hu Hf Htopic Htext.
  assert (Hparsed : str_split "/" (topic msg)
                    = [_username s; "feeds"%string; feed_id])
    by (rewrite Htopic; now apply feed_topic_split).
  run_method. rewrite Hfmt. cbn. rewrite Hcb. cbn.
  rewrite Hparsed. unfold list_getitem. cbn.
  rewrite String.eqb_refl. cbn. rewrite Htext. cbn. rewrite Hcb. cbn.
  rewrite !invocations_app, <- !app_assoc. reflexivity.
Qed.

(** *** The methods of the caller *)

(** [connect] sends one request when the adapter is not marked connected
    and the keyword arguments can be passed, whatever paho answers, and does
    not mark it connected itself. *)
Lemma connect_when_not_connected w (kwargs : list (string * Value)) :
  _connected (self w) = false ->
  keyword_clash kwargs = false ->
  self (after (connect client_connect_result kwargs) w) = self w /\
  requests (trace (after (connect client_connect_result kwargs) w))
  = requests (trace w)
    ++ [Client_connect (_service_host (self w)) (_service_port (self w))
          KEEP_ALIVE_SEC kwargs].
Proof.
  destruct w as [s t]. cbn [self trace]. intros Hflag Hclash.
  run_method. rewrite Hflag. cbn. rewrite Hclash. cbn.
  destruct (client_connect_result _) as [rc|e]; cbn;
    [destruct (rc =? 0); cbn|];
    rewrite !requests_app, <- !app_assoc; split; reflexivity.
Qed.


(** Two calls of [connect()] with a successful handshake in between: the
    second call sends nothing. *)
Lemma connect_after_handshake_is_noop w (k1 k2 : list (string * Value)) :
  let w2 := after (_mqtt_connect 0)
              (after (connect client_connect_result k1) w) in
  connect client_connect_result k2 w2 = (Returned tt, w2).
Proof.
  intros w2.
  assert (Hflag : _connected (self w2) = true)
    by apply mqtt_connect_zero_marks_connected.
  destruct w2 as [s t]. cbn [self] in Hflag.
  run_method. now rewrite Hflag.
Qed.

(** Only the two hooks of the connection write the adapter: the methods of
    the caller leave every attribute, the connected flag among them, as it
    was. *)
Lemma caller_methods_keep_adapter w (feed_id : string) (value : Value) qos
    (kwargs : list (string * Value)) :
  self (after (connect client_connect_result kwargs) w) = self w /\
  self (after disconnect w) = self w /\
  self (after (subscribe feed_id qos) w) = self w /\
  self (after (publish feed_id value qos) w) = self w.
Proof.
  destruct w as [s t]. run_method. split_all.
  - destruct (_connected s); cbn; [reflexivity|].
    destruct (keyword_clash kwargs); cbn; [reflexivity|].
    destruct (client_connect_result _) as [rc|e]; cbn;
      [destruct (rc =? 0)|]; reflexivity.
  - destruct (_connected s); reflexivity.
  - repeat step; reflexivity.
  - repeat step; reflexivity.
Qed.

(** C6. For every feed id and QoS level, [subscribe] forwards exactly one
    subscribe request with that QoS to the paho client: for the topic
    "{username}/feeds/{feed_id}" in structured mode, for the feed id
    unchanged in raw mode. *)
Theorem subscribe_forwards_topic w (feed_id : string) qos :
  (_topic_fmt (self w) = "adafruit_fmt"%string ->
   outcome (subscribe feed_id qos) w = Returned tt /\
   self (after (subscribe feed_id qos) w) = self w /\
   requests (trace (after (subscribe feed_id qos) w))
   = requests (trace w)
     ++ [Client_subscribe (_username (self w) ++ "/feeds/" ++ feed_id) qos])
  /\
  (_topic_fmt (self w) = "rawmqtt_fmt"%string ->
   outcome (subscribe feed_id qos) w = Returned tt /\
   self (after (subscribe feed_id qos) w) = self w /\
   requests (trace (after (subscribe feed_id qos) w))
   = requests (trace w) ++ [Client_subscribe feed_id qos]).
Proof.
  destruct w as [s t]. cbn [self trace].
  split; intros Hfmt; run_method; repeat (rewrite Hfmt; cbn);
    rewrite !requests_app; split_all; reflexivity.
Qed.

(** C7. For every feed id and value, [publish] forwards exactly one publish
    request to the paho client, whose payload is the value and whose topic
    is "{username}/feeds/{feed_id}" in structured mode and the feed id
    unchanged in raw mode. *)
Theorem publish_forwards_value w (feed_id : string) (value : Value) qos :
  (_topic_fmt (self w) = "adafruit_fmt"%string ->
   outcome (publish feed_id value qos) w = Returned tt /\
   self (after (publish feed_id value qos) w) = self w /\
   requests (trace (after (publish feed_id value qos) w))
   = requests (trace w)
     ++ [Client_publish (_username (self w) ++ "/feeds/" ++ feed_id)
           value qos])
  /\
  (_topic_fmt (self w) = "rawmqtt_fmt"%string ->
   outcome (publish feed_id value qos) w = Returned tt /\
   self (after (publish feed_id value qos) w) = self w /\
   requests (trace (after (publish feed_id value qos) w))
   = requests (trace w) ++ [Client_publish feed_id value qos]).
Proof.
  destruct w as [s t]. cbn [self trace].
  split; intros Hfmt; run_method; repeat (rewrite Hfmt; cbn);
    rewrite !requests_app, <- !app_assoc; cbn; rewrite ?app_nil_r;
    split_all; reflexivity.
Qed.

(** C10. With a topic format that is neither 'adafruit_fmt' nor
    'rawmqtt_fmt', [subscribe] and [publish] forward nothing to the paho
    client and raise nothing, for every feed id, value and QoS level: both
    return with the adapter and the trace as they were. *)
Theorem unknown_topic_fmt_is_silent w (feed_id : string) (value : Value) qos :
  _topic_fmt (self w) <> "adafruit_fmt"%string ->
  _topic_fmt (self w) <> "rawmqtt_fmt"%string ->
  subscribe feed_id qos w = (Returned tt, w) /\
  publish feed_id value qos w = (Returned tt, w).
Proof.
  destruct w as [s t]. cbn [self trace]. intros Hstructured Hraw.
  apply String.eqb_neq in Hstructured, Hraw.
  run_method. rewrite Hstructured. cbn. rewrite Hraw.
  split; reflexivity.
Qed.

End Properties.

(** ** The properties at work on the sample adapters *)

Local Open Scope list_scope.

(** The message "72" on "alice/feeds/temp" reaches the callback of alice
    twice: as ("temp", "72") and as ("alice/feeds/temp", "72"). *)
Lemma mqtt_message_structured_dispatches_twice_witness :
  outcome (_mqtt_message temp_72) alice_listening = Returned tt /\
  invocations (trace (after (_mqtt_message temp_72) alice_listening))
  = [("message"%string, self alice_listening, ["temp"%string; "72"%string]);
     ("message"%string, self alice_listening,
      ["alice/feeds/temp"%string; "72"%string])].
Proof.
  apply (mqtt_message_structured_dispatches_twice
           alice_listening "message" temp_72 "temp" "72"); reflexivity.
Defined.



(** Result code 5 (not authorised) on a fresh adapter. *)
Lemma mqtt_connect_refused_witness :
  outcome (_mqtt_connect 5) alice
  = Raised (RuntimeError "Error connecting to io.adafruit.com with rc: 5") /\
  self (after (_mqtt_connect 5) alice) = self alice /\
  outcome is_connected (after (_mqtt_connect 5) alice) = Returned false /\
  invocations (trace (after (_mqtt_connect 5) alice))
  = invocations (trace alice).
Proof.
  apply (mqtt_connect_refused alice 5); [lia | reflexivity].
Defined.

(** Subscribing to "temp" in both modes. *)
Lemma subscribe_forwards_topic_witness :
  requests (trace (after (subscribe "temp" 1) alice))
  = requests (trace alice) ++ [Client_subscribe "alice/feeds/temp" 1] /\
  requests (trace (after (subscribe "temp" 1) alice_raw))
  = requests (trace alice_raw) ++ [Client_subscribe "temp" 1].
Proof.
  split.
  - apply (proj1 (subscribe_forwards_topic alice "temp" 1)). reflexivity.
  - apply (proj2 (subscribe_forwards_topic alice_raw "temp" 1)). reflexivity.
Defined.

(** Publishing "72" to "temp" in both modes. *)
Lemma publish_forwards_value_witness :
  requests (trace (after (publish "temp" "72"%string 0) alice))
  = requests (trace alice)
    ++ [Client_publish "alice/feeds/temp" "72"%string 0] /\
  requests (trace (after (publish "temp" "72"%string 0) alice_raw))
  = requests (trace alice_raw) ++ [Client_publish "temp" "72"%string 0].
Proof.
  split.
  - apply (proj1 (publish_forwards_value alice "temp" "72"%string 0)).
    reflexivity.
  - apply (proj2 (publish_forwards_value alice_raw "temp" "72"%string 0)).
    reflexivity.
Defined.

(** A message without payload on alice's feed: both calls carry "". *)
Lemma mqtt_message_absent_payload_witness :
  raw_payload_text raw_temp_nothing = Some ""%string /\
  outcome (_mqtt_message_raw raw_temp_nothing) alice_listening = Returned tt /\
  invocations (trace (after (_mqtt_message_raw raw_temp_nothing)
                        alice_listening))
  = [("message"%string, self alice_listening, ["temp"%string; ""%string]);
     ("message"%string, self alice_listening,
      ["alice/feeds/temp"%string; ""%string])].
Proof.
  destruct (mqtt_message_absent_payload alice_listening raw_temp_nothing
              (or_introl eq_refl)) as (Htext & _ & Hcalls).
  split; [exact Htext|].
  apply (proj2 (Hcalls "message"%string "alice/feeds/temp"%string
                  eq_refl eq_refl) "temp"%string);
    reflexivity.
Defined.

(** The topic "alice/feeds" has no third segment. *)
Lemma mqtt_message_malformed_topic_witness :
  outcome (_mqtt_message short_topic) alice_listening = Raised IndexError /\
  invocations (trace (after (_mqtt_message short_topic) alice_listening))
  = invocations (trace alice_listening).
Proof.
  apply (mqtt_message_malformed_topic alice_listening "message" short_topic);
    [reflexivity | reflexivity | reflexivity | cbn; lia].
Defined.

(** An adapter built with [topic_fmt='plain']. *)
Lemma unknown_topic_fmt_is_silent_witness :
  subscribe "temp" 1 alice_plain = (Returned tt, alice_plain) /\
  publish "temp" "72"%string 1 alice_plain = (Returned tt, alice_plain).
Proof.
  apply (unknown_topic_fmt_is_silent alice_plain "temp" "72"%string 1);
    discriminate.
Defined.

(** An unexpected disconnect with nobody watching raises, with the reason
    recorded all the same. *)
Example mqtt_disconnect_unexpected :
  outcome (_mqtt_disconnect 3) alice_connected
  = Raised (RuntimeError "Unexpected disconnect from io.adafruit.com with rc: 3")
  /\ outcome is_connected (after (_mqtt_disconnect 3) alice_connected)
     = Returned false
  /\ outcome disconnect_reason (after (_mqtt_disconnect 3) alice_connected)
     = Returned (Some 3).
Proof. repeat split; reflexivity. Qed.

(** The same disconnect with a callback set: the callback is called, with the
    adapter already marked disconnected, and nothing is raised. *)
Example mqtt_disconnect_observed :
  outcome (_mqtt_disconnect 3) alice_watching = Returned tt
  /\ invocations (trace (after (_mqtt_disconnect 3) alice_watching))
     = [("disconnected"%string,
         self (after (_mqtt_disconnect 3) alice_watching), [])]
  /\ _disconnect_reason (self (after (_mqtt_disconnect 3) alice_watching))
     = Some 3.
Proof. repeat split; reflexivity. Qed.

(** A payload that is not UTF-8 makes the message hook fail in the decoder. *)
Example mqtt_message_bad_payload :
  outcome (_mqtt_message (mkMessage "alice/feeds/temp" (Some [xff])))
    alice_listening
  = Raised UnicodeDecodeError.
Proof. reflexivity. Qed.

(** ** Further properties of the adapter *)

Section More_properties.

Context {Value Callable : Type}.
Context (client_connect_result : list (@Event Value Callable) -> Outcome Z).

Implicit Types (w : @World Value Callable) (rc qos : Z) (msg : MQTTMessage).
Implicit Types (h : list (@Action Value Callable)).

Local Open Scope list_scope.

(** Closes the cases of a statement about how a method ends. *)
Ltac settle_cases :=
  rewrite ?invocations_app, ?app_nil_r; cbn; rewrite ?app_nil_r;
  split_all; try (split; intros); try discriminate;
  intuition (try discriminate; try congruence; try lia).

(** *** More on the built-ins *)


(** The topic of a feed, split: the user name, "feeds", then the parts of
    the feed id. *)
Lemma feed_topic_split_parts (username feed_id : string) :
  str_contains "/" username = false ->
  str_split "/" (username ++ "/feeds/" ++ feed_id)%string
  = username :: "feeds"%string :: str_split "/" feed_id.
Proof.
  intros Hu.
  change (username ++ "/feeds/" ++ feed_id)%string
    with (username ++ String "/" ("feeds" ++ String "/" feed_id))%string.
  rewrite (str_split_at_first "/" username _ Hu).
  now rewrite (str_split_at_first "/" "feeds" feed_id eq_refl).
Qed.

(** *** The message hook, case by case *)


(** X2. In structured mode, a message whose topic does not start with the
    configured user name reaches a registered [on_message] callback exactly
    once, with the whole topic and the text: there is no call with a feed
    id, and no failure however few segments the topic has. *)
Theorem mqtt_message_foreign_topic_dispatches_once
    w (f : Callable) msg (first text : string) :
  _topic_fmt (self w) = "adafruit_fmt"%string ->
  on_message (self w) = Some f ->
  list_getitem (str_split "/" (topic msg)) 0 = Some first ->
  first <> _username (self w) ->
  payload_text msg = Some text ->
  outcome (_mqtt_message msg) w = Returned tt /\
  invocations (trace (after (_mqtt_message msg) w))
  = invocations (trace w) ++ [(f, self w, [topic msg; text])].
Proof.
  destruct w as [s t]. cbn [self trace]. intros Hfmt Hcb Hfirst Hne Htext.
  assert (Hneq : (_username s =? first)%string = false)
    by (apply String.eqb_neq; congruence).
  run_method. rewrite Hfmt. cbn. rewrite Hcb. cbn.
  rewrite Hfirst. cbn. rewrite Hneq. cbn. rewrite Hcb. cbn.
  rewrite Htext. cbn.
  rewrite !invocations_app, <- !app_assoc. cbn.
  split; reflexivity.
Qed.

(** When the hook fails on a message whose topic has been read: IndexError
    for the short topic of the user, UnicodeDecodeError for a payload that
    is not UTF-8. *)
Lemma mqtt_message_failure_cases w msg :
  (outcome (_mqtt_message msg) w = Raised IndexError <->
   _topic_fmt (self w) = "adafruit_fmt"%string /\
   on_message (self w) <> None /\
   list_getitem (str_split "/" (topic msg)) 0 = Some (_username (self w)) /\
   (length (str_split "/" (topic msg)) < 3)%nat) /\
  (outcome (_mqtt_message msg) w = Raised UnicodeDecodeError <->
   on_message (self w) <> None /\
   payload_text msg = None /\
   ~ (_topic_fmt (self w) = "adafruit_fmt"%string /\
      list_getitem (str_split "/" (topic msg)) 0 = Some (_username (self w)) /\
      (length (str_split "/" (topic msg)) < 3)%nat)) /\
  (outcome (_mqtt_message msg) w = Returned tt \/
   outcome (_mqtt_message msg) w = Raised IndexError \/
   outcome (_mqtt_message msg) w = Raised UnicodeDecodeError) /\
  (outcome (_mqtt_message msg) w <> Returned tt ->
   invocations (trace (after (_mqtt_message msg) w)) = invocations (trace w)).
Proof.
  clear client_connect_result.
  destruct w as [s t]. cbn [self trace].
  destruct (str_split_first "/" (topic msg)) as [first Hfirst].
  pose proof (list_getitem_none_iff (str_split "/" (topic msg)) 2) as Hthird.
  run_method. rewrite Hfirst.
  destruct (_topic_fmt s =? "adafruit_fmt")%string eqn:Hfmt;
    [apply String.eqb_eq in Hfmt | apply String.eqb_neq in Hfmt];
    destruct (on_message s) as [f|] eqn:Hcb; cbn; repeat (rewrite Hcb; cbn).
  - destruct (_username s =? first)%string eqn:Huser;
      [apply String.eqb_eq in Huser; subst first
      | apply String.eqb_neq in Huser]; cbn.
    + destruct (list_getitem (str_split "/" (topic msg)) 2) as [feed|] eqn:H2;
        cbn.
      * assert (Hlong : ~ (length (str_split "/" (topic msg)) <= 2)%nat)
          by (intros Hle; apply Hthird in Hle; discriminate).
        destruct (payload_text msg) as [text|] eqn:Htext; cbn;
          repeat (rewrite Hcb; cbn); rewrite ?Htext; cbn; settle_cases.
      * assert (Hshort : (length (str_split "/" (topic msg)) <= 2)%nat)
          by now apply Hthird.
        settle_cases.
    + repeat (rewrite Hcb; cbn).
      destruct (payload_text msg) as [text|] eqn:Htext; cbn; settle_cases.
  - settle_cases.
  - destruct (payload_text msg) as [text|] eqn:Htext; cbn; settle_cases.
  - settle_cases.
Qed.

(** *** The message hook on a message as paho holds it *)

(** With a topic that is not UTF-8 the hook fails as soon as it reads the
    topic, and otherwise does nothing but log. *)
Lemma mqtt_message_raw_unreadable w (m : RawMessage) :
  message_topic m = None ->
  after (_mqtt_message_raw m) w
  = mkWorld (self w)
      (trace w ++ [Debug "Client on_message called for %s."
                     [LogStr (_service_host (self w))]]) /\
  (outcome (_mqtt_message_raw m) w = Raised UnicodeDecodeError <->
   _topic_fmt (self w) = "adafruit_fmt"%string \/ on_message (self w) <> None)
  /\
  (outcome (_mqtt_message_raw m) w = Returned tt \/
   outcome (_mqtt_message_raw m) w = Raised UnicodeDecodeError).
Proof.
  clear client_connect_result.
  destruct w as [s t]. cbn [self trace]. intros Htopic.
  run_method. rewrite Htopic.
  destruct (_topic_fmt s =? "adafruit_fmt")%string eqn:Hfmt;
    [apply String.eqb_eq in Hfmt | apply String.eqb_neq in Hfmt]; cbn;
    destruct (on_message s) as [f|] eqn:Hcb; cbn;
    try destruct (raw_payload_text m) as [text|]; cbn;
    split_all; try reflexivity; try (split; intros); try discriminate;
    intuition (try discriminate; try congruence).
Qed.

(** X3. With no [on_message] callback set, the message hook decodes no
    payload and looks up no segment of the topic.  Outside structured mode
    it only writes its log record and returns, for every message.  In
    structured mode it still reads the topic to split it: it returns when
    the topic is text, however short the topic and whatever the payload,
    and raises UnicodeDecodeError when the topic is not UTF-8. *)
Theorem mqtt_message_raw_without_callback w (m : RawMessage) :
  on_message (self w) = None ->
  (_topic_fmt (self w) <> "adafruit_fmt"%string \/ message_topic m <> None ->
   _mqtt_message_raw m w
   = (Returned tt,
      mkWorld (self w)
        (trace w ++ [Debug "Client on_message called for %s."
                       [LogStr (_service_host (self w))]]))) /\
  (_topic_fmt (self w) = "adafruit_fmt"%string -> message_topic m = None ->
   _mqtt_message_raw m w
   = (Raised UnicodeDecodeError,
      mkWorld (self w)
        (trace w ++ [Debug "Client on_message called for %s."
                       [LogStr (_service_host (self w))]]))).
Proof.
  clear client_connect_result.
  destruct w as [s t]. cbn [self trace]. intros Hcb. split.
  - intros Hquiet. run_method.
    destruct (_topic_fmt s =? "adafruit_fmt")%string eqn:Hfmt; cbn.
    + apply String.eqb_eq in Hfmt.
      destruct Hquiet as [Hraw | Hread]; [contradiction|].
      destruct (message_topic m) as [whole|]; [|contradiction]. cbn.
      repeat (rewrite Hcb; cbn). reflexivity.
    + repeat (rewrite Hcb; cbn). reflexivity.
  - intros Hfmt Htopic. run_method. rewrite Hfmt, Htopic. reflexivity.
Qed.

(** X4. When the message hook fails.  It raises IndexError exactly when the
    topic is text and, in structured mode with a callback set, starts with
    the user name and has fewer than three segments.  It raises
    UnicodeDecodeError exactly when the topic is not UTF-8 and is read (in
    structured mode, or with a callback set), or when a callback is set,
    the payload is not UTF-8 and the IndexError case does not apply.  In
    every other case it returns; and when it raises, no callback has been
    called. *)
Theorem mqtt_message_raw_failure_cases w (m : RawMessage) :
  (outcome (_mqtt_message_raw m) w = Raised IndexError <->
   exists whole,
     message_topic m = Some whole /\
     _topic_fmt (self w) = "adafruit_fmt"%string /\
     on_message (self w) <> None /\
     list_getitem (str_split "/" whole) 0 = Some (_username (self w)) /\
     (length (str_split "/" whole) < 3)%nat) /\
  (outcome (_mqtt_message_raw m) w = Raised UnicodeDecodeError <->
   (message_topic m = None /\
    (_topic_fmt (self w) = "adafruit_fmt"%string \/
     on_message (self w) <> None)) \/
   (on_message (self w) <> None /\
    raw_payload_text m = None /\
    exists whole,
      message_topic m = Some whole /\
      ~ (_topic_fmt (self w) = "adafruit_fmt"%string /\
         list_getitem (str_split "/" whole) 0 = Some (_username (self w)) /\
         (length (str_split "/" whole) < 3)%nat))) /\
  (outcome (_mqtt_message_raw m) w = Returned tt \/
   outcome (_mqtt_message_raw m) w = Raised IndexError \/
   outcome (_mqtt_message_raw m) w = Raised UnicodeDecodeError) /\
  (outcome (_mqtt_message_raw m) w <> Returned tt ->
   invocations (trace (after (_mqtt_message_raw m) w))
   = invocations (trace w)).
Proof.
  clear client_connect_result.
  destruct (message_topic m) as [whole|] eqn:Htopic.
  - destruct (mqtt_message_raw_readable w m whole Htopic) as [Htext Hsame].
    unfold outcome, after. rewrite Hsame.
    destruct (mqtt_message_failure_cases w (mkMessage whole (raw_payload m)))
      as (Hindex & Hdecode & Hthree & Hquiet).
    unfold outcome, after in Hindex, Hdecode, Hthree, Hquiet.
    cbn [topic] in Hindex, Hdecode. rewrite <- Htext in Hdecode.
    split_all.
    + rewrite Hindex. split.
      * intros H. exists whole. tauto.
      * intros (whole' & Heq & H). injection Heq as <-. tauto.
    + rewrite Hdecode. split.
      * intros (Hcb & Hpay & Hnot). right. split_all; try assumption.
        exists whole. tauto.
      * intros [[Hnone _] | (Hcb & Hpay & whole' & Heq & Hnot)];
          [discriminate|].
        injection Heq as <-. tauto.
    + exact Hthree.
    + exact Hquiet.
  - destruct (mqtt_message_raw_unreadable w m Htopic)
      as (Hworld & Hdecode & Htwo).
    split_all.
    + split.
      * intros H. destruct Htwo as [H2 | H2]; congruence.
      * intros (whole & Heq & _). discriminate.
    + rewrite Hdecode. split.
      * intros H. left. tauto.
      * intros [[_ H] | (_ & _ & whole & Heq & _)];
          [exact H | discriminate].
    + tauto.
    + intros _. rewrite Hworld. cbn [trace].
      rewrite invocations_app. cbn. now rewrite app_nil_r.
Qed.

(** X14. In structured mode the feed id handed to the callback is the third
    segment of the topic only: for a message on the topic of a feed whose id
    holds a '/', the callback gets the part of the id before the first '/',
    not the id that was subscribed to. *)
Theorem mqtt_message_feed_id_first_segment
    w (f : Callable) msg (feed_id head text : string) :
  _topic_fmt (self w) = "adafruit_fmt"%string ->
  on_message (self w) = Some f ->
  str_contains "/" (_username (self w)) = false ->
  topic msg = (_username (self w) ++ "/feeds/" ++ feed_id)%string ->
  list_getitem (str_split "/" feed_id) 0 = Some head ->
  payload_text msg = Some text ->
  invocations (trace (after (_mqtt_message msg) w))
  = invocations (trace w)
    ++ [(f, self w, [head; text]); (f, self w, [topic msg; text])].
Proof.
  destruct w as [s t]. cbn [self trace].
  intros Hfmt Hcb Hu Htopic Hhead Htext.
  assert (Hparsed : str_split "/" (topic msg)
                    = _username s :: "feeds"%string :: str_split "/" feed_id)
    by (rewrite Htopic; now apply feed_topic_split_parts).
  assert (H0 : list_getitem (str_split "/" (topic msg)) 0
               = Some (_username s)) by now rewrite Hparsed.
  assert (H2 : list_getitem (str_split "/" (topic msg)) 2 = Some head)
    by (rewrite Hparsed; exact Hhead).
  run_method. rewrite Hfmt. cbn. rewrite Hcb. cbn.
  rewrite H0. cbn. rewrite String.eqb_refl, H2. cbn.
  rewrite Htext. cbn. rewrite Hcb. cbn.
  rewrite !invocations_app, <- !app_assoc. reflexivity.
Qed.


(** *** Connecting and disconnecting *)



(** X6. [disconnect()] on an adapter marked connected sends one disconnect
    request and leaves the adapter marked connected (only the disconnect
    hook clears the mark).  So until that hook runs, a second
    [disconnect()] sends a second request and a [connect()] sends nothing. *)
Theorem disconnect_when_connected w (kwargs : list (string * Value)) :
  _connected (self w) = true ->
  outcome disconnect w = Returned tt /\
  requests (trace (after disconnect w))
  = requests (trace w) ++ [Client_disconnect] /\
  outcome is_connected (after disconnect w) = Returned true /\
  requests (trace (after disconnect (after disconnect w)))
  = requests (trace w) ++ [Client_disconnect; Client_disconnect] /\
  connect client_connect_result kwargs (after disconnect w)
  = (Returned tt, after disconnect w).
Proof.
  destruct w as [s t]. cbn [self trace]. intros Hflag.
  run_method. repeat (rewrite Hflag; cbn).
  rewrite !requests_app, <- !app_assoc. cbn.
  split_all; reflexivity.
Qed.


(** X11. The three hooks never call the paho client: whatever the result
    code or the message, and however the hook ends, the requests made on
    the client are the ones made before. *)
Theorem hooks_send_no_requests w rc msg :
  requests (trace (after (_mqtt_connect rc) w)) = requests (trace w) /\
  requests (trace (after (_mqtt_disconnect rc) w)) = requests (trace w) /\
  requests (trace (after (_mqtt_message msg) w)) = requests (trace w).
Proof.
  clear client_connect_result.
  destruct w as [s t]. run_method. split_all; repeat step.
  all: rewrite ?requests_app; cbn; rewrite ?app_nil_r; reflexivity.
Qed.

(** *** Whole histories *)

(** Runs one action down to the world it leaves. *)
Ltac run_action :=
  run_method; repeat step;
  repeat match goal with
         | |- context [client_connect_result ?t] =>
             destruct (client_connect_result t) eqn:?; cbn; repeat step
         end.

Lemma perform_all_app h1 h2 w :
  perform_all client_connect_result (h1 ++ h2) w
  = perform_all client_connect_result h2
      (perform_all client_connect_result h1 w).
Proof. unfold perform_all. apply fold_left_app. Qed.

(** What one action does to the connected flag. *)
Lemma perform_connected (a : @Action Value Callable) w :
  _connected (self (perform client_connect_result a w))
  = if is_handshake a then true
    else if is_disconnect_hook a then false
    else _connected (self w).
Proof.
  destruct w as [s t].
  destruct a; cbn [perform is_handshake is_disconnect_hook];
    unfold set_on_connect, set_on_disconnect, set_on_message;
    run_action; cbn; congruence.
Qed.

(** What one action does to the recorded disconnect reason. *)
Lemma perform_disconnect_reason (a : @Action Value Callable) w :
  _disconnect_reason (self (perform client_connect_result a w))
  = match a with
    | Hook_disconnect rc => Some rc
    | _ => _disconnect_reason (self w)
    end.
Proof.
  destruct w as [s t].
  destruct a; cbn [perform];
    unfold set_on_connect, set_on_disconnect, set_on_message;
    run_action; cbn; congruence.
Qed.

Lemma connected_stays_true h w :
  forallb (fun a => negb (is_disconnect_hook a)) h = true ->
  _connected (self w) = true ->
  _connected (self (perform_all client_connect_result h w)) = true.
Proof.
  revert w. induction h as [|a h IH]; intros w Hquiet Hflag; [exact Hflag|].
  cbn in Hquiet. apply andb_true_iff in Hquiet as [Ha Hquiet].
  apply negb_true_iff in Ha.
  change (perform_all client_connect_result (a :: h) w)
    with (perform_all client_connect_result h
            (perform client_connect_result a w)).
  apply IH; [exact Hquiet|].
  rewrite perform_connected, Ha, Hflag. now destruct (is_handshake a).
Qed.

Lemma disconnect_reason_stays h w :
  forallb (fun a => negb (is_disconnect_hook a)) h = true ->
  _disconnect_reason (self (perform_all client_connect_result h w))
  = _disconnect_reason (self w).
Proof.
  revert w. induction h as [|a h IH]; intros w Hquiet; [reflexivity|].
  cbn in Hquiet. apply andb_true_iff in Hquiet as [Ha Hquiet].
  apply negb_true_iff in Ha.
  change (perform_all client_connect_result (a :: h) w)
    with (perform_all client_connect_result h
            (perform client_connect_result a w)).
  rewrite (IH _ Hquiet), perform_disconnect_reason.
  destruct a; try reflexivity. discriminate.
Qed.

(** X8. The connected flag over a whole history.  On an adapter that starts
    disconnected, after any sequence of method calls, callback assignments
    and hook calls (failed ones included), [_connected] is true exactly when
    the history holds a connect hook with result code 0 that no disconnect
    hook follows. *)
Theorem connected_iff_standing_handshake w h :
  _connected (self w) = false ->
  (_connected (self (perform_all client_connect_result h w)) = true <->
   exists before rest,
     h = before ++ Hook_connect 0 :: rest /\
     forallb (fun a => negb (is_disconnect_hook a)) rest = true).
Proof.
  intros Hstart. split.
  - induction h as [|a h IH] using rev_ind.
    + cbn. congruence.
    + rewrite perform_all_app. cbn [perform_all fold_left].
      rewrite perform_connected.
      destruct a; cbn [is_handshake is_disconnect_hook];
        try (intros Hflag; destruct (IH Hflag) as (before & rest & -> & Hrest);
             eexists before, (rest ++ [_]); split;
             [now rewrite <- app_assoc
             | rewrite forallb_app, Hrest; reflexivity]).
      * destruct (Z.eqb_spec rc 0) as [->|Hrc].
        -- intros _. exists h, []. split; reflexivity.
        -- intros Hflag. destruct (IH Hflag) as (before & rest & -> & Hrest).
           exists before, (rest ++ [Hook_connect rc]). split;
             [now rewrite <- app_assoc
             | rewrite forallb_app, Hrest; reflexivity].
      * discriminate.
  - intros (before & rest & -> & Hrest).
    rewrite perform_all_app.
    change (perform_all client_connect_result (Hook_connect 0 :: rest)
              (perform_all client_connect_result before w))
      with (perform_all client_connect_result rest
              (perform client_connect_result (Hook_connect 0)
                 (perform_all client_connect_result before w))).
    apply connected_stays_true; [exact Hrest|].
    now rewrite perform_connected.
Qed.

(** X9. [disconnect_reason] over a whole history: it is the result code of
    the most recent disconnect hook, and it is what it was at the start
    ([None] on a new adapter) as long as no disconnect hook has run. *)
Theorem disconnect_reason_is_latest_code w h :
  (forallb (fun a => negb (is_disconnect_hook a)) h = true ->
   outcome disconnect_reason (perform_all client_connect_result h w)
   = Returned (_disconnect_reason (self w))) /\
  (forall before rc rest,
     h = before ++ Hook_disconnect rc :: rest ->
     forallb (fun a => negb (is_disconnect_hook a)) rest = true ->
     outcome disconnect_reason (perform_all client_connect_result h w)
     = Returned (Some rc)).
Proof.
  split.
  - intros Hquiet. unfold outcome, disconnect_reason, bind, get_self, ret.
    cbn. now rewrite disconnect_reason_stays.
  - intros before rc rest -> Hrest.
    unfold outcome, disconnect_reason, bind, get_self, ret. cbn.
    rewrite perform_all_app.
    change (perform_all client_connect_result (Hook_disconnect rc :: rest)
              (perform_all client_connect_result before w))
      with (perform_all client_connect_result rest
              (perform client_connect_result (Hook_disconnect rc)
                 (perform_all client_connect_result before w))).
    now rewrite (disconnect_reason_stays _ _ Hrest), perform_disconnect_reason.
Qed.

(** X10. The configuration is fixed at construction: no sequence of method
    calls, callback assignments and hook calls changes the user name, the
    host, the port, the topic format or the instance name. *)
Theorem configuration_never_changes w h :
  _username (self (perform_all client_connect_result h w))
  = _username (self w) /\
  _service_host (self (perform_all client_connect_result h w))
  = _service_host (self w) /\
  _service_port (self (perform_all client_connect_result h w))
  = _service_port (self w) /\
  _topic_fmt (self (perform_all client_connect_result h w))
  = _topic_fmt (self w) /\
  _instance_name (self (perform_all client_connect_result h w))
  = _instance_name (self w).
Proof.
  revert w. induction h as [|a h IH]; intros w; [split_all; reflexivity|].
  change (perform_all client_connect_result (a :: h) w)
    with (perform_all client_connect_result h
            (perform client_connect_result a w)).
  destruct (IH (perform client_connect_result a w))
    as (-> & -> & -> & -> & ->).
  destruct w as [s t].
  destruct a; cbn [perform];
    unfold set_on_connect, set_on_disconnect, set_on_message;
    run_action; split_all; reflexivity.
Qed.

(** X12. The adapter only calls what it holds: over any history, every
    callback call in the trace names a callback that was set on the adapter
    at the time of the call.  An adapter whose callbacks were never set
    calls nothing. *)
Theorem callbacks_called_are_registered w h :
  Forall registered (invocations (trace w)) ->
  Forall registered
    (invocations (trace (perform_all client_connect_result h w))).
Proof.
  revert w. induction h as [|a h IH]; intros w Hw; [exact Hw|].
  change (perform_all client_connect_result (a :: h) w)
    with (perform_all client_connect_result h
            (perform client_connect_result a w)).
  apply IH. destruct w as [s t]. cbn [trace] in Hw.
  destruct a; cbn [perform];
    unfold set_on_connect, set_on_disconnect, set_on_message;
    run_action; rewrite ?invocations_app; cbn;
    rewrite ?app_nil_r, <- ?app_assoc; try exact Hw.
  all: apply Forall_app; split; [exact Hw|].
  all: repeat constructor; cbn; intuition congruence.
Qed.

(** With no callback set, an action that is not an assignment sets none and
    calls none. *)
Lemma perform_without_callbacks (a : @Action Value Callable) w :
  is_assignment a = false ->
  on_connect (self w) = None ->
  on_disconnect (self w) = None ->
  on_message (self w) = None ->
  on_connect (self (perform client_connect_result a w)) = None /\
  on_disconnect (self (perform client_connect_result a w)) = None /\
  on_message (self (perform client_connect_result a w)) = None /\
  invocations (trace (perform client_connect_result a w))
  = invocations (trace w).
Proof.
  destruct w as [s t]. cbn [self trace]. intros Ha Hc Hd Hm.
  destruct a; try discriminate Ha; cbn [perform]; run_method;
    rewrite ?Hc, ?Hd, ?Hm; cbn; run_action; rewrite ?Hc, ?Hd, ?Hm; cbn;
    rewrite ?invocations_app; cbn; rewrite ?app_nil_r;
    split_all; congruence.
Qed.

(** X16. A new adapter has no callbacks, "so they don't fire": whatever the
    arguments of the constructor, as long as the caller sets no callback, no
    sequence of method calls and hook calls makes the adapter call
    anything. *)
Theorem new_adapter_calls_nothing
    (username key service_host : string) (service_port : Z)
    (client_id : option string) (topic_fmt : string)
    (instance_name : option string) h :
  forallb (fun a => negb (is_assignment a)) h = true ->
  invocations
    (trace (perform_all client_connect_result h
              (__init__ username key service_host service_port client_id
                 topic_fmt instance_name)))
  = [].
Proof.
  intros Hplain.
  assert (Hgeneral : forall w,
             on_connect (self w) = None -> on_disconnect (self w) = None ->
             on_message (self w) = None ->
             invocations (trace (perform_all client_connect_result h w))
             = invocations (trace w)).
  { induction h as [|a h IH]; intros w Hc Hd Hm; [reflexivity|].
    cbn in Hplain. apply andb_true_iff in Hplain as [Ha Hplain].
    apply negb_true_iff in Ha.
    destruct (perform_without_callbacks a w Ha Hc Hd Hm)
      as (Hc' & Hd' & Hm' & Hsame).
    change (perform_all client_connect_result (a :: h) w)
      with (perform_all client_connect_result h
              (perform client_connect_result a w)).
    rewrite (IH Hplain _ Hc' Hd' Hm'). exact Hsame. }
  now rewrite Hgeneral.
Qed.

End More_properties.

(** ** The further properties at work on the sample adapters *)


(** X2: a message for bob reaches the callback of alice once. *)
Lemma mqtt_message_foreign_topic_dispatches_once_witness :
  outcome (_mqtt_message bob_72) alice_listening = Returned tt /\
  invocations (trace (after (_mqtt_message bob_72) alice_listening))
  = [("message"%string, self alice_listening,
      ["bob/feeds/temp"%string; "72"%string])].
Proof.
  apply (mqtt_message_foreign_topic_dispatches_once
           alice_listening "message" bob_72 "bob" "72");
    [reflexivity | reflexivity | reflexivity | discriminate | reflexivity].
Defined.

(** X3: with nobody listening, a short topic and a garbled payload do no
    harm, and a garbled topic fails only in structured mode. *)
Lemma mqtt_message_raw_without_callback_witness :
  _mqtt_message_raw raw_short_garbled alice
  = (Returned tt,
     mkWorld (self alice)
       (trace alice ++ [Debug "Client on_message called for %s."
                          [LogStr (_service_host (self alice))]]))
  /\ _mqtt_message_raw raw_garbled_topic alice_raw
     = (Returned tt,
        mkWorld (self alice_raw)
          (trace alice_raw ++ [Debug "Client on_message called for %s."
                                 [LogStr (_service_host (self alice_raw))]]))
  /\ _mqtt_message_raw raw_garbled_topic alice
     = (Raised UnicodeDecodeError,
        mkWorld (self alice)
          (trace alice ++ [Debug "Client on_message called for %s."
                             [LogStr (_service_host (self alice))]])).
Proof.
  split; [|split].
  - apply (proj1 (mqtt_message_raw_without_callback alice raw_short_garbled
                    eq_refl)).
    right. discriminate.
  - apply (proj1 (mqtt_message_raw_without_callback alice_raw
                    raw_garbled_topic eq_refl)).
    left. discriminate.
  - apply (proj2 (mqtt_message_raw_without_callback alice raw_garbled_topic
                    eq_refl));
      reflexivity.
Defined.



(** X6: disconnecting alice once the handshake has succeeded. *)
Lemma disconnect_when_connected_witness :
  outcome disconnect alice_connected = Returned tt /\
  requests (trace (after disconnect alice_connected))
  = requests (trace alice_connected) ++ [Client_disconnect] /\
  outcome is_connected (after disconnect alice_connected) = Returned true /\
  requests (trace (after disconnect (after disconnect alice_connected)))
  = requests (trace alice_connected) ++ [Client_disconnect; Client_disconnect]
  /\ connect paho_accepts [] (after disconnect alice_connected)
     = (Returned tt, after disconnect alice_connected).
Proof.
  apply (disconnect_when_connected paho_accepts alice_connected []).
  reflexivity.
Defined.

(** X8: the live session ends connected, the dropped one does not. *)
Lemma connected_iff_standing_handshake_witness :
  _connected (self (perform_all paho_accepts live_session alice)) = true /\
  _connected (self (perform_all paho_accepts dropped_session alice)) <> true.
Proof.
  split.
  - apply (proj2 (connected_iff_standing_handshake
                    paho_accepts alice live_session eq_refl)).
    exists [Call_connect []],
      [Call_subscribe "temp" 0; Hook_message temp_72;
       Call_publish "temp" "73"%string 0].
    split; reflexivity.
  - vm_compute. discriminate.
Defined.

(** X9: no reason in the live session, code 7 in the dropped one. *)
Lemma disconnect_reason_is_latest_code_witness :
  outcome disconnect_reason (perform_all paho_accepts live_session alice)
  = Returned None /\
  outcome disconnect_reason (perform_all paho_accepts dropped_session alice)
  = Returned (Some 7).
Proof.
  split.
  - apply (proj1 (disconnect_reason_is_latest_code
                    paho_accepts alice live_session)).
    reflexivity.
  - apply (proj2 (disconnect_reason_is_latest_code
                    paho_accepts alice dropped_session)
             [Assign_on_message (Some "message"%string);
              Assign_on_disconnect (Some "disconnected"%string);
              Call_connect []; Hook_connect 0; Call_subscribe "temp" 0;
              Hook_message temp_72] 7 []);
      reflexivity.
Defined.

(** X12: every callback call of the dropped session was to a callback set. *)
Lemma callbacks_called_are_registered_witness :
  Forall registered
    (invocations (trace (perform_all paho_accepts dropped_session alice))).
Proof.
  apply (callbacks_called_are_registered paho_accepts alice dropped_session).
  constructor.
Defined.

(** X13: what is subscribed as "temp" comes back as "temp". *)
Lemma mqtt_message_on_feed_topic_witness :
  requests (trace (after (subscribe "temp" 0) alice_listening))
  = requests (trace alice_listening) ++ [Client_subscribe (topic temp_72) 0]
  /\ invocations (trace (after (_mqtt_message temp_72) alice_listening))
     = [("message"%string, self alice_listening,
         ["temp"%string; "72"%string]);
        ("message"%string, self alice_listening,
         ["alice/feeds/temp"%string; "72"%string])].
Proof.
  split; [reflexivity|].
  apply (mqtt_message_on_feed_topic alice_listening "message" temp_72
           "temp" "72"); reflexivity.
Defined.

(** X14: what is subscribed as "home/temp" comes back as "home". *)
Lemma mqtt_message_feed_id_first_segment_witness :
  requests (trace (after (subscribe "home/temp" 0) alice_listening))
  = requests (trace alice_listening)
    ++ [Client_subscribe (topic home_temp_72) 0]
  /\ invocations (trace (after (_mqtt_message home_temp_72) alice_listening))
     = [("message"%string, self alice_listening,
         ["home"%string; "72"%string]);
        ("message"%string, self alice_listening,
         ["alice/feeds/home/temp"%string; "72"%string])].
Proof.
  split; [reflexivity|].
  apply (mqtt_message_feed_id_first_segment alice_listening "message"
           home_temp_72 "home/temp" "home" "72"); reflexivity.
Defined.


(** X16: a whole session of alice without callbacks calls nothing. *)
Lemma new_adapter_calls_nothing_witness :
  invocations
    (trace (perform_all paho_accepts
              [Call_connect []; Hook_connect 0; Call_subscribe "temp" 0;
               Hook_message temp_72; Hook_disconnect 0]
              alice))
  = [].
Proof.
  apply (new_adapter_calls_nothing paho_accepts "alice" "secret"
           default_service_host default_service_port None default_topic_fmt
           None).
  reflexivity.
Defined.
